(** * Hindi word counter: a shallow embedding of [app.py]

    The development follows the layout of the Python module:
    - Python values ([str] as a sequence of code points, [bytes], [int]);
    - the part of [re] that [HINDI_WORD_REGEX] uses (a one-range character
      class under [+], and [findall]);
    - the interface of the PDF library ([fitz]) the module calls;
    - a state-and-exception monad for the calls that have effects
      ([fitz.open], [Document.close], [UploadFile.read], [print]);
    - [count_hindi_words_in_pdf] and [handle_pdf_upload];
    - the properties of the specification. *)

From Equations Require Import Equations.
From stdpp Require Import gmap strings list fin_maps.
From Stdlib Require Import ZArith Lia Strings.Byte Ascii.

Open Scope Z_scope.

(** ** Python values *)

(** A Python [str] is a sequence of Unicode code points. *)
Abbreviation str := (list Z) (only parsing).

(** A Python [bytes] object. *)
Abbreviation bytes := (list byte) (only parsing).

#[global] Instance byte_eq_decision : EqDecision byte := byte_eq_dec.

(** An ASCII literal of the source, as a [str]. *)
Definition pystr (s : string) : str :=
  map (fun a : ascii => Z.of_N (N_of_ascii a)) (String.list_ascii_of_string s).

(** [len(xs)], a Python [int]. *)
Definition len {A} (xs : list A) : Z := Z.of_nat (length xs).

(** [text[s:e]] for [0 <= s <= e]. *)
Definition slice (text : str) (s e : nat) : str := take (e - s) (drop s text).

Definition sumZ (xs : list Z) : Z := foldr Z.add 0 xs.

(** ** The [re] module, for patterns of the shape [[lo-hi]+] *)

Module Re.

(** A compiled pattern [[lo-hi]+]: one or more characters of one
    inclusive range. *)
Record Pattern := RangePlus { lo : Z; hi : Z }.

(** Membership in the character class of the pattern. *)
Definition in_class (re : Pattern) (c : Z) : bool :=
  (lo re <=? c) && (c <=? hi re).

(** The greedy repeat: how many leading characters of [text] are in the
    class. *)
Fixpoint greedy (re : Pattern) (text : str) : nat :=
  match text with
  | c :: t => if in_class re c then S (greedy re t) else O
  | [] => O
  end.

(** An anchored match at the start of [text]: the length of the match,
    which needs at least one character. *)
Definition match_here (re : Pattern) (text : str) : option nat :=
  match greedy re text with
  | O => None
  | S n => Some (S n)
  end.

(** [re.findall(text)]: scan from left to right; where the pattern
    matches, take the matched substring and go on after it; where it does
    not, move one character on. *)
Equations? findall (re : Pattern) (text : str) : list str
  by wf (length text) lt :=
  findall re [] := [];
  findall re (c :: t) with match_here re (c :: t) := {
    | Some (S n) := take (S n) (c :: t) :: findall re (drop n t);
    | Some O := findall re t;
    | None := findall re t }.
Proof. all: simpl; try lia. rewrite length_drop. lia. Qed.

(** The spans [(start, end)] of the same scan ([m.span()] of
    [re.finditer]), for a scan that starts at offset [pos]. *)
Equations? finditer (re : Pattern) (pos : nat) (text : str) : list (nat * nat)
  by wf (length text) lt :=
  finditer re pos [] := [];
  finditer re pos (c :: t) with match_here re (c :: t) := {
    | Some (S n) := (pos, pos + S n)%nat :: finditer re (pos + S n) (drop n t);
    | Some O := finditer re (S pos) t;
    | None := finditer re (S pos) t }.
Proof. all: simpl; try lia. rewrite length_drop. lia. Qed.

End Re.

(** [HINDI_WORD_REGEX = re.compile(r'[\u0900-\u097F]+')] *)
Definition HINDI_WORD_REGEX : Re.Pattern := Re.RangePlus 0x0900 0x097F.

(** ** The PDF library *)

(** What the module uses of [fitz] (PyMuPDF): opening a document from a
    byte stream, which raises on a stream that is no PDF; iterating over the
    pages of a document; extracting the plain text of a page. [get_text]
    stands for all that getting the text of a page takes (loading the page,
    extracting its text), any of which may raise. The exceptions of the
    library are values of [exn]; [exn_str] is [str(e)]. The library is a
    parameter of the development: nothing is assumed of what it accepts. *)
Class Fitz := {
  exn : Type;
  exn_str : exn -> str;
  Document : Type;
  Page : Type;
  fitz_open : bytes -> exn + Document;
  pages : Document -> list Page;
  get_text : Page -> exn + str
}.

(** ** Effects *)

(** The calls with an effect outside the function that makes them. *)
Inductive Event :=
| EvOpen (stream : bytes)
| EvClose (stream : bytes)
| EvRead (file : bytes)
| EvPrint (line : str).

(** The world a call runs in: the streams held by the documents that are
    open, and the calls made so far. *)
Record World := mkWorld {
  open_documents : list bytes;
  trace : list Event
}.

Definition log (ev : Event) (w : World) : World :=
  mkWorld (open_documents w) (trace w ++ [ev]).

(** Removes the first occurrence of [b]. *)
Fixpoint remove_first (b : bytes) (bs : list bytes) : list bytes :=
  match bs with
  | [] => []
  | b' :: bs' => if decide (b = b') then bs' else b' :: remove_first b bs'
  end.

Section Program.

Context `{fitz : Fitz}.

(** A computation that may raise and may change the world. *)
Definition M (A : Type) : Type := World -> (exn + A) * World.

Definition ret {A} (a : A) : M A := fun w => (inr a, w).

Definition bind {A B} (m : M A) (k : A -> M B) : M B :=
  fun w =>
    match m w with
    | (inr a, w') => k a w'
    | (inl e, w') => (inl e, w')
    end.

(** A library call that returns or raises. *)
Definition lift {A} (r : exn + A) : M A := fun w => (r, w).

(** [try: body  except Exception as e: handler(e)] *)
Definition try_except {A} (body : M A) (handler : exn -> M A) : M A :=
  fun w =>
    match body w with
    | (inr a, w') => (inr a, w')
    | (inl e, w') => handler e w'
    end.

(** [fitz.open(stream=stream, filetype="pdf")] *)
Definition open_document (stream : bytes) : M Document :=
  fun w =>
    let w' := log (EvOpen stream) w in
    match fitz_open stream with
    | inr doc => (inr doc, mkWorld (stream :: open_documents w') (trace w'))
    | inl e => (inl e, w')
    end.

(** [doc.close()], for the document opened from [stream]. *)
Definition close_document (stream : bytes) : M unit :=
  fun w =>
    let w' := log (EvClose stream) w in
    (inr tt, mkWorld (remove_first stream (open_documents w')) (trace w')).

(** [with fitz.open(stream=stream, filetype="pdf") as doc: body]: the
    document is closed when the body returns and when it raises. *)
Definition with_open {A} (stream : bytes) (body : Document -> M A) : M A :=
  bind (open_document stream) (fun doc =>
    fun w =>
      match body doc w with
      | (r, w') => (r, snd (close_document stream w'))
      end).

(** [for x in xs: acc = body(x, acc)] *)
Fixpoint for_each {A X} (xs : list X) (body : X -> A -> M A) (acc : A) : M A :=
  match xs with
  | [] => ret acc
  | x :: xs' => bind (body x acc) (for_each xs' body)
  end.

(** [count_hindi_words_in_pdf(pdf_content)] *)
Definition count_hindi_words_in_pdf (pdf_content : bytes) : M Z :=
  let word_count := 0 in
  with_open pdf_content (fun doc =>
    for_each (pages doc) (fun page word_count =>
      bind (lift (get_text page)) (fun text =>
        let hindi_words := Re.findall HINDI_WORD_REGEX text in
        ret (word_count + len hindi_words)))
      word_count).

End Program.

(** ** The upload handler *)

(** [s.lower()], on the ASCII letters. Python also maps cased code points
    outside ASCII; the handler only compares the result with the ASCII
    suffix [.pdf]. *)
Definition lower_char (c : Z) : Z :=
  if (0x41 <=? c) && (c <=? 0x5A) then c + 0x20 else c.

Definition lower (s : str) : str := map lower_char s.

(** [s.endswith(suffix)] *)
Definition endswith (s suffix : str) : bool :=
  bool_decide (drop (length s - length suffix) s = suffix).

(** [UploadFile]: the name the client sent and the uploaded content. *)
Record UploadFile := mkUploadFile { filename : str; file : bytes }.

Section Handler.

Context `{fitz : Fitz}.
Context {Request : Type}.

(** The values the handler stores in the template context. *)
Inductive Value :=
| VRequest (r : Request)
| VStr (s : str)
| VInt (n : Z).

(** [templates.TemplateResponse(name, context)] *)
Record TemplateResponse := mkTemplateResponse {
  template : string;
  context : gmap string Value
}.

(** [await pdf_file.read()] *)
Definition read (pdf_file : UploadFile) : M bytes :=
  fun w => (inr (file pdf_file), log (EvRead (file pdf_file)) w).

(** [print(line)] *)
Definition print (line : str) : M unit :=
  fun w => (inr tt, log (EvPrint line) w).

(** [get_upload_form(request)] *)
Definition get_upload_form (request : Request) : M TemplateResponse :=
  ret (mkTemplateResponse "index.html" {[ "request"%string := VRequest request ]}).

(** [handle_pdf_upload(request, pdf_file)] *)
Definition handle_pdf_upload (request : Request) (pdf_file : UploadFile)
  : M TemplateResponse :=
  let context : gmap string Value := {[ "request"%string := VRequest request ]} in
  if negb (endswith (lower (filename pdf_file)) (pystr ".pdf")) then
    let context :=
      <[ "error"%string := VStr (pystr "Invalid file type. Please upload a PDF.") ]> context in
    ret (mkTemplateResponse "index.html" context)
  else
    bind
      (try_except
         (bind (read pdf_file) (fun file_bytes =>
          bind (count_hindi_words_in_pdf file_bytes) (fun total_words =>
          let context := <[ "word_count"%string := VInt total_words ]> context in
          let context := <[ "filename"%string := VStr (filename pdf_file) ]> context in
          ret context)))
         (fun e =>
          bind (print (pystr "Error processing file " ++ filename pdf_file
                         ++ pystr ": " ++ exn_str e)) (fun _ =>
          let context :=
            <[ "error"%string :=
                 VStr (pystr "Could not process the PDF file. It may be corrupt or invalid.") ]>
              context in
          ret context)))
      (fun context => ret (mkTemplateResponse "index.html" context)).

End Handler.

(** ** The words of the specification *)

(** A code point of the Devanagari block, U+0900 to U+097F inclusive. *)
Definition devanagari (c : Z) : bool := (0x0900 <=? c) && (c <=? 0x097F).

(** The text has a Devanagari code point at index [i]. *)
Definition devanagari_at (text : str) (i : nat) : bool :=
  from_option devanagari false (text !! i).

(** [text[s:e]] is a maximal run: it is not empty, all of it is
    Devanagari, and it can be extended neither to the left nor to the
    right. *)
Definition is_maximal_run (text : str) (s e : nat) : bool :=
  (s <? e)%nat
  && forallb (devanagari_at text) (seq s (e - s))
  && match s with O => true | S p => negb (devanagari_at text p) end
  && negb (devanagari_at text e).

(** All the index pairs [(s, e)] with [s < e <= n]. *)
Definition index_pairs (n : nat) : list (nat * nat) :=
  s ← seq 0 n; e ← seq (S s) (n - s); [(s, e)].

(** The maximal runs of a text, as index pairs. *)
Definition maximal_runs (text : str) : list (nat * nat) :=
  List.filter (fun p => is_maximal_run text p.1 p.2) (index_pairs (length text)).

(** The number of maximal runs of a page text. *)
Definition count_maximal_runs (text : str) : Z := len (maximal_runs text).

(** The per-page step of the counter. *)
Definition count_page (text : str) : Z := len (Re.findall HINDI_WORD_REGEX text).

(** A file name ends in [.pdf] whatever the case of its letters. *)
Definition ends_in_pdf (name : str) : Prop :=
  exists stem p d f,
    name = stem ++ [0x2E; p; d; f]
    /\ (p = 0x70 \/ p = 0x50) /\ (d = 0x64 \/ d = 0x44) /\ (f = 0x66 \/ f = 0x46).

(** ** A stand-in for the PDF library *)

(** A small document format to run the program on: the four bytes [%PDF],
    then the text as two-byte big-endian code units, each page closed by a
    form feed (U+000C). Text extraction fails on a page that holds the
    code unit U+FFFF. *)
Module FakeFitz.

Definition magic : bytes := [x25; x50; x44; x46].

Definition code_unit (h l : byte) : Z :=
  256 * Z.of_N (Byte.to_N h) + Z.of_N (Byte.to_N l).

Fixpoint decode (body : bytes) (page : str) : list str :=
  match body with
  | h :: l :: rest =>
      if code_unit h l =? 0x0C then rev page :: decode rest []
      else decode rest (code_unit h l :: page)
  | _ => match page with [] => [] | _ => [rev page] end
  end.

Definition byte_of (n : Z) : byte := default x00 (Byte.of_N (Z.to_N n)).

Definition encode_page (text : str) : bytes :=
  (c ← text; [byte_of (c / 256); byte_of (c mod 256)]) ++ [x00; x0c].

(** The document whose pages have the given texts. *)
Definition pdf_of (texts : list str) : bytes :=
  magic ++ (text ← texts; encode_page text).

#[export] Instance fake : Fitz := {|
  exn := string;
  exn_str := pystr;
  Document := list str;
  Page := str;
  fitz_open := fun stream =>
    if bool_decide (take 4 stream = magic)
    then inr (decode (drop 4 stream) [])
    else inl "Failed to open stream"%string;
  pages := fun doc => doc;
  get_text := fun page =>
    if existsb (Z.eqb 0xFFFF) page
    then inl "cannot extract text"%string
    else inr page
|}.

(** An HTTP request, for the handler. *)
Definition request := unit.

End FakeFitz.

(** A library that repairs what it is given, on the same document format:
    it opens every buffer and recovers the pages it can find; a buffer
    without the four bytes [%PDF] has none. It never raises. *)
Module TolerantFitz.


End TolerantFitz.

(** ** Byte buffers of the specification *)



(** The plain text [hello], as bytes. *)
Definition bytes_hello : bytes := [x68; x65; x6c; x6c; x6f].


(** ** Texts of the specification *)



(** [१२३ ४५६] and a line feed. *)
Definition text_two_numbers : str :=
  [0x0967; 0x0968; 0x0969; 0x20; 0x096A; 0x096B; 0x096C; 0x0A].


(** [हैलो hello वर्ल्ड] *)
Definition text_hello_world : str :=
  [0x0939; 0x0948; 0x0932; 0x094B; 0x20;
   0x68; 0x65; 0x6C; 0x6C; 0x6F; 0x20;
   0x0935; 0x0930; 0x094D; 0x0932; 0x094D; 0x0921].

(** [राम।]: three Devanagari code points and the danda U+0964. *)
Definition text_ram_danda : str := [0x0930; 0x093E; 0x092E; 0x0964].

(** [राम.]: the same word before an ASCII full stop. *)
Definition text_ram_stop : str := [0x0930; 0x093E; 0x092E; 0x2E].

(** [१२३]: three Devanagari digits. *)
Definition text_digits : str := [0x0967; 0x0968; 0x0969].

(** [।]: a danda alone. *)
Definition text_danda : str := [0x0964].

(** [hello]: no Devanagari. *)
Definition text_hello : str := [0x68; 0x65; 0x6C; 0x6C; 0x6F].

(** The texts of the pages, in page order, or the first exception that
    extracting them raises. *)
Fixpoint texts_of `{fitz : Fitz} (ps : list Page) : exn + list str :=
  match ps with
  | [] => inr []
  | p :: ps' =>
      match get_text p with
      | inl e => inl e
      | inr text =>
          match texts_of ps' with
          | inl e => inl e
          | inr texts => inr (text :: texts)
          end
      end
  end.

(** The page texts of a byte buffer: the buffer opens as a document and
    every page gives its text. *)
Definition extract_text `{fitz : Fitz} (stream : bytes) : exn + list str :=
  match fitz_open stream with
  | inl e => inl e
  | inr doc => texts_of (pages doc)
  end.

(** ** The scan of [re.findall] *)

Section Scan.

Variable re : Re.Pattern.

Lemma greedy_le text : (Re.greedy re text <= length text)%nat.
Proof.
  induction text as [|c t IH]; simpl; [lia|].
  destruct (Re.in_class re c); simpl; lia.
Qed.

(** The characters that the greedy repeat takes are in the class. *)
Lemma greedy_inside text i c :
  (i < Re.greedy re text)%nat -> text !! i = Some c -> Re.in_class re c = true.
Proof.
  revert i. induction text as [|a t IH]; intros i Hi Hc; simpl in *; [lia|].
  destruct (Re.in_class re a) eqn:Ha; [|lia].
  destruct i as [|i]; simpl in Hc.
  - injection Hc as <-. exact Ha.
  - apply (IH i); [lia | exact Hc].
Qed.

(** The character after them, when there is one, is not. *)
Lemma greedy_stop text c :
  text !! Re.greedy re text = Some c -> Re.in_class re c = false.
Proof.
  induction text as [|a t IH]; simpl; [discriminate|].
  destruct (Re.in_class re a) eqn:Ha; simpl.
  - exact IH.
  - intros [= <-]. exact Ha.
Qed.

Lemma match_here_cons c t :
  Re.match_here re (c :: t) =
    if Re.in_class re c then Some (S (Re.greedy re t)) else None.
Proof. unfold Re.match_here. simpl. destruct (Re.in_class re c); reflexivity. Qed.

(** The two equations of the scan. *)
Lemma findall_cons c t :
  Re.findall re (c :: t) =
    if Re.in_class re c
    then (c :: take (Re.greedy re t) t) :: Re.findall re (drop (Re.greedy re t) t)
    else Re.findall re t.
Proof.
  simp findall. rewrite match_here_cons.
  destruct (Re.in_class re c); reflexivity.
Qed.

Lemma finditer_cons pos c t :
  Re.finditer re pos (c :: t) =
    if Re.in_class re c
    then (pos, pos + S (Re.greedy re t))%nat
           :: Re.finditer re (pos + S (Re.greedy re t)) (drop (Re.greedy re t) t)
    else Re.finditer re (S pos) t.
Proof.
  simp finditer. rewrite match_here_cons.
  destruct (Re.in_class re c); reflexivity.
Qed.

End Scan.

Section ScanSpans.

Variable re : Re.Pattern.

(** Induction on the length of the text that is left to scan. *)
Lemma scan_ind (P : list Z -> Prop) :
  P [] ->
  (forall c t,
      (forall t', (length t' <= length t)%nat -> P t') -> P (c :: t)) ->
  forall text : list Z, P text.
Proof.
  intros Hnil Hcons text.
  remember (length text) as n eqn:Hn. revert text Hn.
  induction n as [n IH] using lt_wf_ind. intros [|c t] Hn.
  - exact Hnil.
  - apply Hcons. intros t' Hle. apply (IH (length t')); [simpl in Hn; lia | reflexivity].
Qed.

(** [findall] returns the substrings at the spans of [finditer]. *)
Lemma findall_slices text :
  forall pre,
    Re.findall re text =
      map (fun p => slice (pre ++ text) p.1 p.2) (Re.finditer re (length pre) text).
Proof.
  induction text as [|c t IH] using scan_ind; intros pre.
  - reflexivity.
  - rewrite findall_cons, finditer_cons.
    destruct (Re.in_class re c) eqn:Hc.
    + pose proof (greedy_le re t) as Hle.
      set (n := Re.greedy re t) in *.
      cbn [map fst snd]. f_equal.
      * unfold slice. rewrite drop_app_length.
        replace (length pre + S n - length pre)%nat with (S n) by lia.
        reflexivity.
      * specialize (IH (drop n t)). rewrite length_drop in IH.
        specialize (IH ltac:(lia) (pre ++ c :: take n t)).
        rewrite IH. rewrite length_app. cbn [length]. rewrite length_take.
        replace (n `min` length t)%nat with n by lia.
        rewrite <- app_assoc. cbn [app]. rewrite take_drop. reflexivity.
    + specialize (IH t ltac:(lia) (pre ++ [c])).
      rewrite IH. rewrite length_app. cbn [length].
      replace (length pre + 1)%nat with (S (length pre)) by lia.
      rewrite <- app_assoc. reflexivity.
Qed.

Lemma findall_length_finditer text pos :
  length (Re.findall re text) = length (Re.finditer re pos text).
Proof.
  revert pos. induction text as [|c t IH] using scan_ind; intros pos.
  - reflexivity.
  - rewrite findall_cons, finditer_cons.
    destruct (Re.in_class re c); cbn [length].
    + f_equal. apply IH. rewrite length_drop. lia.
    + apply IH. lia.
Qed.

(** A span starts at or after the offset of the scan, and is not empty. *)
Lemma finditer_bounds text :
  forall pos s e, (s, e) ∈ Re.finditer re pos text -> (pos <= s < e)%nat.
Proof.
  induction text as [|c t IH] using scan_ind; intros pos s e Hin.
  - simp finditer in Hin. inversion Hin.
  - rewrite finditer_cons in Hin.
    destruct (Re.in_class re c).
    + apply elem_of_cons in Hin as [[= -> ->]|Hin]; [lia|].
      apply IH in Hin; [lia | rewrite length_drop; lia].
    + apply IH in Hin; [lia | lia].
Qed.

(** No span is reported twice. *)
Lemma finditer_NoDup text : forall pos, NoDup (Re.finditer re pos text).
Proof.
  induction text as [|c t IH] using scan_ind; intros pos.
  - simp finditer. constructor.
  - rewrite finditer_cons.
    destruct (Re.in_class re c).
    + constructor.
      * intros Hin. apply finditer_bounds in Hin. lia.
      * apply IH. rewrite length_drop. lia.
    + apply IH. lia.
Qed.

End ScanSpans.

(** ** Maximal runs *)

Lemma in_class_devanagari c : Re.in_class HINDI_WORD_REGEX c = devanagari c.
Proof. reflexivity. Qed.

Lemma devanagari_at_lt text i : devanagari_at text i = true -> (i < length text)%nat.
Proof.
  unfold devanagari_at. destruct (text !! i) as [c|] eqn:Hi; [|discriminate].
  intros _. eapply lookup_lt_Some, Hi.
Qed.

Lemma devanagari_at_lookup text i c :
  text !! i = Some c -> devanagari_at text i = devanagari c.
Proof. unfold devanagari_at. intros ->. reflexivity. Qed.

Lemma is_maximal_run_spec text s e :
  is_maximal_run text s e = true <->
    (s < e)%nat
    /\ (forall i, (s <= i < e)%nat -> devanagari_at text i = true)
    /\ (forall p, s = S p -> devanagari_at text p = false)
    /\ devanagari_at text e = false.
Proof.
  unfold is_maximal_run.
  rewrite !andb_true_iff, Nat.ltb_lt, forallb_forall, negb_true_iff.
  split.
  - intros [[[Hse Hall] Hleft] Hright]. repeat split; try assumption.
    + intros i Hi. apply Hall, in_seq. lia.
    + intros p ->. apply negb_true_iff, Hleft.
  - intros (Hse & Hall & Hleft & Hright). repeat split; try assumption.
    + intros i Hi. apply in_seq in Hi. apply Hall. lia.
    + destruct s as [|p]; [reflexivity|]. apply negb_true_iff, Hleft. reflexivity.
Qed.

(** A maximal run lies inside the text. *)
Lemma is_maximal_run_bounds text s e :
  is_maximal_run text s e = true -> (s < e <= length text)%nat.
Proof.
  intros (Hse & Hall & _)%is_maximal_run_spec.
  split; [exact Hse|].
  specialize (Hall (e - 1)%nat ltac:(lia)). apply devanagari_at_lt in Hall. lia.
Qed.

(** The spans that the scan reports from offset [pos] on are the maximal
    runs that start there or later, when the scan does not start inside a
    run. *)
Lemma finditer_maximal full text :
  forall pos s e,
    text = drop pos full ->
    (forall p, pos = S p -> devanagari_at full p = true -> devanagari_at full pos = false) ->
    (s, e) ∈ Re.finditer HINDI_WORD_REGEX pos text <->
      (pos <= s)%nat /\ is_maximal_run full s e = true.
Proof.
  induction text as [|c t IH] using scan_ind; intros pos s e Htext Hb.
  - simp finditer. split; [intros Hin; inversion Hin|].
    intros [Hle (Hse & Hall & _)%is_maximal_run_spec].
    specialize (Hall s ltac:(lia)). apply devanagari_at_lt in Hall.
    apply (f_equal length) in Htext. rewrite length_drop in Htext. simpl in Htext. lia.
  - assert (Hc : full !! pos = Some c).
    { rewrite <- (Nat.add_0_r pos), <- lookup_drop, <- Htext. reflexivity. }
    assert (Ht : t = drop (S pos) full).
    { rewrite <- (Nat.add_1_r pos), <- drop_drop, <- Htext. reflexivity. }
    pose proof (devanagari_at_lookup _ _ _ Hc) as Hpos.
    rewrite finditer_cons, in_class_devanagari.
    destruct (devanagari c) eqn:Hdev.
    + set (n := Re.greedy HINDI_WORD_REGEX t).
      assert (Hinside : forall i, (pos <= i < pos + S n)%nat -> devanagari_at full i = true).
      { intros i Hi. destruct (decide (i = pos)) as [->|Hne]; [exact Hpos|].
        pose proof (greedy_le HINDI_WORD_REGEX t) as Hn. fold n in Hn.
        assert (Hlt : (i - S pos < length t)%nat) by lia.
        apply lookup_lt_is_Some in Hlt as [a Ha].
        pose proof Ha as Ha'. rewrite Ht, lookup_drop in Ha'.
        replace (S pos + (i - S pos))%nat with i in Ha' by lia.
        rewrite (devanagari_at_lookup _ _ _ Ha'), <- in_class_devanagari.
        apply (greedy_inside _ t (i - S pos)); [fold n; lia | exact Ha]. }
      assert (Hstop : devanagari_at full (pos + S n) = false).
      { destruct (full !! (pos + S n)%nat) as [a|] eqn:Ha.
        - rewrite (devanagari_at_lookup _ _ _ Ha), <- in_class_devanagari.
          apply (greedy_stop _ t). fold n. rewrite Ht, lookup_drop.
          rewrite <- Ha. f_equal. lia.
        - unfold devanagari_at. rewrite Ha. reflexivity. }
      assert (Hleft : forall p, pos = S p -> devanagari_at full p = false).
      { intros p Hp. destruct (devanagari_at full p) eqn:Hdp; [|reflexivity].
        specialize (Hb p Hp Hdp). congruence. }
      rewrite elem_of_cons.
      rewrite (IH (drop n t) ltac:(rewrite length_drop; lia) (pos + S n)%nat s e); cycle 1.
      { rewrite Ht, drop_drop. f_equal. lia. }
      { intros p Hp _. exact Hstop. }
      split.
      * intros [[= -> ->]|[Hle Hrun]].
        -- split; [lia|]. apply is_maximal_run_spec.
           split; [lia|]. split; [exact Hinside|]. split; [exact Hleft | exact Hstop].
        -- split; [lia | exact Hrun].
      * intros [Hle Hrun]. pose proof Hrun as (Hse & Hall & Hl & Hr)%is_maximal_run_spec.
        destruct (decide (s = pos)) as [->|Hne].
        -- left. f_equal.
           destruct (decide (e < pos + S n)%nat) as [Hlt|Hge].
           { rewrite Hinside in Hr by lia. discriminate. }
           destruct (decide (pos + S n < e)%nat) as [Hgt|Hle'].
           { rewrite Hall in Hstop by lia. discriminate. }
           lia.
        -- right. split; [|exact Hrun].
           destruct (decide (s < pos + S n)%nat) as [Hlt|Hge]; [|lia].
           destruct s as [|p]; [lia|].
           specialize (Hl p eq_refl). rewrite Hinside in Hl by lia. discriminate.
    + rewrite (IH t ltac:(lia) (S pos) s e Ht); cycle 1.
      { intros p [= <-] Hp. congruence. }
      split.
      * intros [Hle Hrun]. split; [lia | exact Hrun].
      * intros [Hle Hrun]. split; [|exact Hrun].
        pose proof Hrun as (Hse & Hall & _)%is_maximal_run_spec.
        destruct (decide (s = pos)) as [->|Hne]; [|lia].
        rewrite Hall in Hpos by lia. discriminate.
Qed.

Lemma index_pairs_spec n s e : (s, e) ∈ index_pairs n <-> (s < e <= n)%nat.
Proof.
  unfold index_pairs. rewrite list_elem_of_bind. split.
  - intros (s' & (e' & Hp & He)%list_elem_of_bind & Hs).
    apply list_elem_of_singleton in Hp as [= -> ->].
    apply elem_of_seq in He, Hs. lia.
  - intros Hse. exists s. split; [|apply elem_of_seq; lia].
    apply list_elem_of_bind. exists e. split; [apply list_elem_of_singleton; reflexivity|].
    apply elem_of_seq. lia.
Qed.

Lemma index_pairs_NoDup n : NoDup (index_pairs n).
Proof.
  unfold index_pairs. apply NoDup_bind; [| |apply NoDup_seq].
  - intros s1 s2 [s e] _ _ (e1 & Hp1 & _)%list_elem_of_bind (e2 & Hp2 & _)%list_elem_of_bind.
    apply list_elem_of_singleton in Hp1, Hp2. congruence.
  - intros s _. apply NoDup_bind; [| |apply NoDup_seq].
    + intros e1 e2 p _ _ Hp1%list_elem_of_singleton Hp2%list_elem_of_singleton. congruence.
    + intros e _. apply NoDup_singleton.
Qed.

Lemma maximal_runs_spec text s e :
  (s, e) ∈ maximal_runs text <-> is_maximal_run text s e = true.
Proof.
  unfold maximal_runs. rewrite list_elem_of_In, filter_In, <- list_elem_of_In. simpl.
  rewrite index_pairs_spec. split; [intros [_ Hrun]; exact Hrun|].
  intros Hrun. split; [apply is_maximal_run_bounds, Hrun | exact Hrun].
Qed.

Lemma maximal_runs_NoDup text : NoDup (maximal_runs text).
Proof.
  unfold maximal_runs. apply NoDup_ListNoDup, List.NoDup_filter, NoDup_ListNoDup.
  apply index_pairs_NoDup.
Qed.

(** The spans of a scan of the whole text are its maximal runs. *)
Lemma finditer_maximal_runs text :
  Re.finditer HINDI_WORD_REGEX 0 text ≡ₚ maximal_runs text.
Proof.
  apply NoDup_Permutation; [apply finditer_NoDup | apply maximal_runs_NoDup |].
  intros [s e]. rewrite maximal_runs_spec.
  rewrite (finditer_maximal text text 0 s e eq_refl); [|intros p [=]].
  split; [intros [_ Hrun]; exact Hrun | intros Hrun; split; [lia | exact Hrun]].
Qed.

(** The per-page step counts the maximal runs of the page text. *)
Lemma count_page_maximal_runs text : count_page text = count_maximal_runs text.
Proof.
  unfold count_page, count_maximal_runs, len. f_equal.
  rewrite (findall_length_finditer _ _ 0%nat).
  apply Permutation_length, finditer_maximal_runs.
Qed.

(** ** Running the counter *)

Section Run.

Context `{fitz : Fitz}.

Lemma remove_first_head b bs : remove_first b (b :: bs) = bs.
Proof. simpl. destruct (decide (b = b)); [reflexivity | contradiction]. Qed.

(** The loop over the pages adds the count of each page to the
    accumulator, and stops at the first page whose text cannot be
    extracted. It leaves the world as it is. *)
Lemma for_each_pages ps :
  forall acc w,
    for_each ps (fun page word_count =>
      bind (lift (get_text page)) (fun text =>
        let hindi_words := Re.findall HINDI_WORD_REGEX text in
        ret (word_count + len hindi_words))) acc w
    = (match texts_of ps with
       | inl e => inl e
       | inr texts => inr (acc + sumZ (map count_page texts))
       end, w).
Proof.
  induction ps as [|p ps IH]; intros acc w; simpl.
  - unfold ret. do 2 f_equal. lia.
  - unfold bind at 1. unfold bind at 1. unfold lift.
    destruct (get_text p) as [e|text]; [reflexivity|].
    unfold ret at 1. rewrite IH.
    destruct (texts_of ps) as [e|texts]; [reflexivity|].
    simpl. do 2 f_equal. unfold count_page. lia.
Qed.

(** What a call of the counter returns and what it leaves behind. *)
Lemma count_hindi_words_in_pdf_run b w :
  count_hindi_words_in_pdf b w =
    match fitz_open b with
    | inl e => (inl e, log (EvOpen b) w)
    | inr doc =>
        (match texts_of (pages doc) with
         | inl e => inl e
         | inr texts => inr (sumZ (map count_page texts))
         end,
         mkWorld (open_documents w) (trace w ++ [EvOpen b; EvClose b]))
    end.
Proof.
  unfold count_hindi_words_in_pdf, with_open, bind, open_document.
  destruct (fitz_open b) as [e|doc]; [reflexivity|].
  rewrite for_each_pages. unfold close_document, log. cbn [snd open_documents trace].
  rewrite remove_first_head, <- app_assoc. simpl.
  destruct (texts_of (pages doc)); reflexivity.
Qed.

Lemma count_hindi_words_in_pdf_result b w :
  (count_hindi_words_in_pdf b w).1 =
    match extract_text b with
    | inl e => inl e
    | inr texts => inr (sumZ (map count_page texts))
    end.
Proof.
  rewrite count_hindi_words_in_pdf_run. unfold extract_text.
  destruct (fitz_open b); reflexivity.
Qed.

Lemma texts_of_app ps1 ps2 :
  texts_of (ps1 ++ ps2) =
    match texts_of ps1 with
    | inl e => inl e
    | inr texts1 =>
        match texts_of ps2 with
        | inl e => inl e
        | inr texts2 => inr (texts1 ++ texts2)
        end
    end.
Proof.
  induction ps1 as [|p ps1 IH]; simpl.
  - destruct (texts_of ps2); reflexivity.
  - destruct (get_text p); [reflexivity|]. rewrite IH.
    destruct (texts_of ps1); [reflexivity|]. destruct (texts_of ps2); reflexivity.
Qed.

End Run.

Lemma sumZ_app xs ys : sumZ (xs ++ ys) = sumZ xs + sumZ ys.
Proof. induction xs as [|x xs IH]; simpl; [reflexivity|]. unfold sumZ in *. simpl. lia. Qed.

Lemma count_page_nonneg text : 0 <= count_page text.
Proof. unfold count_page, len. lia. Qed.

Lemma sumZ_count_page_nonneg texts : 0 <= sumZ (map count_page texts).
Proof.
  induction texts as [|t texts IH]; simpl; [reflexivity|].
  pose proof (count_page_nonneg t). unfold sumZ in *. simpl. lia.
Qed.

Lemma in_class_true re c : Re.in_class re c = true <-> Re.lo re <= c <= Re.hi re.
Proof. unfold Re.in_class. rewrite andb_true_iff, !Z.leb_le. reflexivity. Qed.

Lemma in_class_false re c :
  Re.in_class re c = false <-> ~ (Re.lo re <= c <= Re.hi re).
Proof.
  rewrite <- in_class_true. destruct (Re.in_class re c); split; congruence.
Qed.

(** A text without a character of the class has no match. *)
Lemma findall_none re text :
  Forall (fun c => Re.in_class re c = false) text -> Re.findall re text = [].
Proof.
  induction 1 as [|c t Hc _ IH]; [reflexivity|].
  rewrite findall_cons, Hc. exact IH.
Qed.

(** A text that is not empty and lies in the class is one match. *)
Lemma greedy_all re text :
  Forall (fun c => Re.in_class re c = true) text -> Re.greedy re text = length text.
Proof. induction 1 as [|c t Hc _ IH]; simpl; [reflexivity|]. rewrite Hc, IH. reflexivity. Qed.

Lemma findall_whole re text :
  text <> [] -> Forall (fun c => Re.in_class re c = true) text ->
  Re.findall re text = [text].
Proof.
  intros Hne Hall. destruct text as [|c t]; [contradiction|].
  apply Forall_cons in Hall as [Hc Ht].
  rewrite findall_cons, Hc, (greedy_all _ _ Ht), firstn_all, drop_all.
  reflexivity.
Qed.

(** ** The file name test of the handler *)

Lemma lower_char_stop c : lower_char c = 0x2E -> c = 0x2E.
Proof. unfold lower_char. destruct ((0x41 <=? c) && (c <=? 0x5A)) eqn:E; lia. Qed.

Lemma lower_char_letter c l :
  0x61 <= l <= 0x7A -> lower_char c = l -> c = l \/ c = l - 0x20.
Proof. unfold lower_char. destruct ((0x41 <=? c) && (c <=? 0x5A)) eqn:E; lia. Qed.

(** The test of the handler is the test of the specification. *)
Lemma endswith_lower_pdf name :
  endswith (lower name) (pystr ".pdf") = true <-> ends_in_pdf name.
Proof.
  unfold endswith, lower. rewrite bool_decide_eq_true, length_map.
  change (pystr ".pdf") with [0x2E; 0x70; 0x64; 0x66]. cbn [length].
  rewrite <- fmap_drop. split.
  - intros Hdrop. exists (take (length name - 4) name).
    destruct (drop (length name - 4) name) as [|a [|p [|d [|f [|? ?]]]]] eqn:Hsuffix;
      try discriminate.
    injection Hdrop as Ha Hp Hd Hf.
    apply lower_char_stop in Ha as ->.
    apply lower_char_letter in Hp, Hd, Hf; try lia.
    exists p, d, f. rewrite <- Hsuffix, take_drop. repeat split; try reflexivity; lia.
  - intros (stem & p & d & f & -> & Hp & Hd & Hf).
    rewrite length_app. cbn [length].
    replace (length stem + 4 - 4)%nat with (length stem) by lia.
    rewrite drop_app_length.
    destruct Hp as [-> | ->], Hd as [-> | ->], Hf as [-> | ->]; reflexivity.
Qed.

(** ** More on the scan of [re.findall] *)

Section ScanMore.

Variable re : Re.Pattern.

(** The characters of a greedy repeat are in the class. *)
Lemma greedy_take text :
  Forall (fun c => Re.in_class re c = true) (take (Re.greedy re text) text).
Proof.
  induction text as [|c t IH]; simpl; [constructor|].
  destruct (Re.in_class re c) eqn:Hc; simpl; [|constructor].
  constructor; [exact Hc | exact IH].
Qed.

(** What is left after a greedy repeat is empty or starts outside the
    class. *)
Lemma greedy_drop text :
  match drop (Re.greedy re text) text with
  | [] => True
  | c :: _ => Re.in_class re c = false
  end.
Proof.
  induction text as [|c t IH]; simpl; [exact I|].
  destruct (Re.in_class re c) eqn:Hc; simpl; [exact IH | exact Hc].
Qed.

(** A character outside the class stops the greedy repeat. *)
Lemma greedy_app_stop t1 c t2 :
  Re.in_class re c = false ->
  Re.greedy re (t1 ++ c :: t2) = Re.greedy re t1.
Proof.
  intros Hc. induction t1 as [|a t1 IH]; simpl.
  - rewrite Hc. reflexivity.
  - destruct (Re.in_class re a); [rewrite IH|]; reflexivity.
Qed.

Lemma filter_in_class_all text :
  Forall (fun c => Re.in_class re c = true) text ->
  List.filter (Re.in_class re) text = text.
Proof.
  induction 1 as [|c t Hc _ IH]; simpl; [reflexivity|]. rewrite Hc, IH. reflexivity.
Qed.

Lemma filter_in_class_nil text :
  List.filter (Re.in_class re) text = [] ->
  Forall (fun c => Re.in_class re c = false) text.
Proof.
  induction text as [|c t IH]; simpl; [constructor|].
  destruct (Re.in_class re c) eqn:Hc; [discriminate|].
  intros Ht. constructor; [exact Hc | apply IH, Ht].
Qed.

(** X8. No match of [findall] is empty, and no match holds a character
    outside the class of the pattern. *)
Theorem findall_matches_in_class (text m : str) :
  m ∈ Re.findall re text ->
  m <> [] /\ Forall (fun c => Re.in_class re c = true) m.
Proof.
  revert m. induction text as [|c t IH] using scan_ind; intros m Hm.
  - simp findall in Hm. inversion Hm.
  - rewrite findall_cons in Hm. destruct (Re.in_class re c) eqn:Hc.
    + apply elem_of_cons in Hm as [->|Hm].
      * split; [discriminate|]. constructor; [exact Hc | apply greedy_take].
      * apply (IH (drop (Re.greedy re t) t)); [rewrite length_drop; lia | exact Hm].
    + apply (IH t); [lia | exact Hm].
Qed.

(** The matches, one after the other, are the characters of the text that
    are in the class. *)
Lemma findall_concat (text : str) :
  concat (Re.findall re text) = List.filter (Re.in_class re) text.
Proof.
  induction text as [|c t IH] using scan_ind.
  - reflexivity.
  - rewrite findall_cons. cbn [List.filter]. destruct (Re.in_class re c) eqn:Hc.
    + cbn [concat app]. f_equal.
      rewrite (IH (drop (Re.greedy re t) t)) by (rewrite length_drop; lia).
      rewrite <- (filter_in_class_all _ (greedy_take t)) at 1.
      rewrite <- List.filter_app, take_drop. reflexivity.
    + apply IH. lia.
Qed.

(** A character outside the class separates the scan. *)
Lemma findall_sep (t1 : str) (c : Z) (t2 : str) :
  Re.in_class re c = false ->
  Re.findall re (t1 ++ c :: t2) = Re.findall re t1 ++ Re.findall re t2.
Proof.
  intros Hc. induction t1 as [|a t IH] using scan_ind.
  - cbn [app]. rewrite findall_cons, Hc. reflexivity.
  - cbn [app]. rewrite !findall_cons.
    destruct (Re.in_class re a); [|apply IH; lia].
    rewrite (greedy_app_stop _ _ _ Hc).
    pose proof (greedy_le re t) as Hle.
    rewrite take_app_le, drop_app_le by exact Hle.
    cbn [app]. f_equal. apply IH. rewrite length_drop. lia.
Qed.

(** X10. A character outside the class separates the scan: the matches of
    a text around such a character are the matches of what comes before it
    followed by the matches of what comes after it. *)
Theorem findall_split (t1 : str) (c : Z) (t2 : str) :
  Re.in_class re c = false ->
  Re.findall re (t1 ++ c :: t2) = Re.findall re t1 ++ Re.findall re t2.
Proof. apply findall_sep. Qed.

(** X11. Two matches are at least one character apart: a text of [n]
    characters has at most [(n + 1) / 2] matches. *)
Theorem findall_length_bound (text : str) :
  (2 * length (Re.findall re text) <= length text + 1)%nat.
Proof.
  induction text as [|c t IH] using scan_ind.
  - simp findall. simpl. lia.
  - rewrite findall_cons. destruct (Re.in_class re c).
    + cbn [length].
      pose proof (greedy_drop t) as Hrest.
      pose proof (length_drop t (Re.greedy re t)) as Hlen.
      destruct (drop (Re.greedy re t) t) as [|c' r] eqn:Hr.
      * simp findall. simpl. lia.
      * rewrite findall_cons, Hrest.
        cbn [length] in Hlen.
        specialize (IH r ltac:(lia)). lia.
    + specialize (IH t ltac:(lia)). cbn [length]. lia.
Qed.

End ScanMore.

(** ** Words and separators *)




(** A Devanagari word is one match; a word without Devanagari has none. *)
Lemma findall_devanagari_word word :
  word <> [] -> Forall (fun c => 0x0900 <= c <= 0x097F) word ->
  Re.findall HINDI_WORD_REGEX word = [word].
Proof.
  intros Hne Hall. apply findall_whole; [exact Hne|].
  eapply Forall_impl; [exact Hall|]. intros c Hc. apply in_class_true. exact Hc.
Qed.



(** ** Properties of the counter *)

Section Counter.

Context `{fitz : Fitz}.

(** C1. For a byte buffer that opens as a PDF and gives the text of each
    of its pages, [count_hindi_words_in_pdf] returns the sum, over the
    pages, of the number of maximal runs of code points in U+0900 to
    U+097F of the page text; a run counts once, whatever its length. *)
Theorem count_is_sum_of_maximal_runs (b : bytes) (texts : list str) (w : World) :
  extract_text b = inr texts ->
  (count_hindi_words_in_pdf b w).1 = inr (sumZ (map count_maximal_runs texts)).
Proof.
  intros Htexts. rewrite count_hindi_words_in_pdf_result, Htexts.
  do 2 f_equal. apply map_ext. intros text. apply count_page_maximal_runs.
Qed.

(** C2, amended. For a PDF whose extracted text is one Devanagari run
    followed by one punctuation character, the counter returns 1. The
    punctuation character is left out of the matched run when it lies
    outside U+0900 to U+097F, as a full stop does; it is part of the
    matched run when it lies inside, as the danda U+0964 of [राम।] does. *)
Theorem run_then_punctuation_is_one_word (b : bytes) (run : str) (p : Z) (w : World) :
  extract_text b = inr [run ++ [p]] ->
  run <> [] ->
  Forall (fun c => 0x0900 <= c <= 0x097F) run ->
  (count_hindi_words_in_pdf b w).1 = inr 1
  /\ (~ (0x0900 <= p <= 0x097F) ->
      Re.findall HINDI_WORD_REGEX (run ++ [p]) = [run])
  /\ (0x0900 <= p <= 0x097F ->
      Re.findall HINDI_WORD_REGEX (run ++ [p]) = [run ++ [p]]).
Proof.
  intros Htexts Hne Hrun.
  assert (Hout : ~ (0x0900 <= p <= 0x097F) ->
                 Re.findall HINDI_WORD_REGEX (run ++ [p]) = [run]).
  { intros Hp. rewrite findall_sep by (apply in_class_false; exact Hp).
    rewrite (findall_devanagari_word _ Hne Hrun). reflexivity. }
  assert (Hin : 0x0900 <= p <= 0x097F ->
                Re.findall HINDI_WORD_REGEX (run ++ [p]) = [run ++ [p]]).
  { intros Hp. apply findall_devanagari_word.
    - destruct run; discriminate.
    - apply Forall_app. split; [exact Hrun | constructor; [exact Hp | constructor]]. }
  split; [|split; assumption].
  rewrite count_hindi_words_in_pdf_result, Htexts.
  cbn [map sumZ foldr]. unfold count_page.
  destruct (decide (0x0900 <= p <= 0x097F)) as [Hp|Hp];
    [rewrite (Hin Hp) | rewrite (Hout Hp)]; reflexivity.
Qed.


(** C4. For a PDF that parses and whose page texts hold no code point in
    U+0900 to U+097F the counter returns 0, and whatever it returns is
    not negative. *)
Theorem count_without_devanagari (b : bytes) (w : World) :
  (forall texts,
      extract_text b = inr texts ->
      Forall (Forall (fun c => ~ (0x0900 <= c <= 0x097F))) texts ->
      (count_hindi_words_in_pdf b w).1 = inr 0)
  /\ (forall n, (count_hindi_words_in_pdf b w).1 = inr n -> 0 <= n).
Proof.
  rewrite count_hindi_words_in_pdf_result. split.
  - intros texts -> Hnone. do 2 f_equal.
    induction Hnone as [|text texts Htext _ IH]; [reflexivity|].
    cbn [map sumZ foldr]. fold (sumZ (map count_page texts)). rewrite IH.
    unfold count_page. rewrite findall_none; [reflexivity|].
    eapply Forall_impl; [exact Htext|].
    intros c Hc. apply in_class_false. exact Hc.
  - intros n Hn. destruct (extract_text b) as [|texts]; [discriminate|].
    injection Hn as <-. apply sumZ_count_page_nonneg.
Qed.


(** C6. The count of a document is the sum of the counts of its pages,
    each page counted by itself; so the count of a document whose pages
    are those of one document followed by those of another is the sum of
    the two counts. *)
Theorem count_is_additive_over_pages (b1 b2 b : bytes) (texts1 texts2 : list str)
    (w1 w2 w : World) :
  extract_text b1 = inr texts1 ->
  extract_text b2 = inr texts2 ->
  extract_text b = inr (texts1 ++ texts2) ->
  (count_hindi_words_in_pdf b w).1 = inr (sumZ (map count_page (texts1 ++ texts2)))
  /\ exists n1 n2,
      (count_hindi_words_in_pdf b1 w1).1 = inr n1
      /\ (count_hindi_words_in_pdf b2 w2).1 = inr n2
      /\ (count_hindi_words_in_pdf b w).1 = inr (n1 + n2).
Proof.
  intros H1 H2 H12. rewrite !count_hindi_words_in_pdf_result, H1, H2, H12.
  split; [reflexivity|].
  eexists _, _. split; [reflexivity|]. split; [reflexivity|].
  rewrite map_app, sumZ_app. reflexivity.
Qed.

(** C8. The counter leaves nothing behind: after the call, whether it
    returned or raised, the documents that are open are those that were
    open before, so no document holds the buffer; and the only calls it
    made are the opening and the closing of a document on that buffer. *)
Theorem count_has_no_side_effect (b : bytes) (w : World) :
  open_documents (count_hindi_words_in_pdf b w).2 = open_documents w
  /\ exists events,
      trace (count_hindi_words_in_pdf b w).2 = trace w ++ events
      /\ Forall (fun ev => ev = EvOpen b \/ ev = EvClose b) events.
Proof.
  rewrite count_hindi_words_in_pdf_run.
  destruct (fitz_open b) as [e|doc]; simpl.
  - split; [reflexivity|]. exists [EvOpen b]. split; [reflexivity|].
    constructor; [left; reflexivity | constructor].
  - split; [reflexivity|]. exists [EvOpen b; EvClose b]. split; [reflexivity|].
    constructor; [left; reflexivity|].
    constructor; [right; reflexivity | constructor].
Qed.

(** C10. The class is the whole Devanagari block, not its letters alone:
    in any page text, a run that is not empty, holds only Devanagari digits
    (U+0966 to U+096F) and dandas (U+0964), and has no code point of the
    block next to it on either side, is one match, beside the matches of
    what comes before and after it; so it counts as one word. A page text
    that is such a run alone gives 1. *)
Theorem count_digits_and_danda (b : bytes) (pre run post : str) (w : World) :
  extract_text b = inr [pre ++ run ++ post] ->
  run <> [] ->
  Forall (fun c => 0x0966 <= c <= 0x096F \/ c = 0x0964) run ->
  (pre = [] \/ exists pre' c, pre = pre' ++ [c] /\ ~ (0x0900 <= c <= 0x097F)) ->
  (post = [] \/ exists c post', post = c :: post' /\ ~ (0x0900 <= c <= 0x097F)) ->
  Re.findall HINDI_WORD_REGEX (pre ++ run ++ post)
  = Re.findall HINDI_WORD_REGEX pre ++ [run] ++ Re.findall HINDI_WORD_REGEX post
  /\ (count_hindi_words_in_pdf b w).1 = inr (count_page pre + 1 + count_page post).
Proof.
  intros Htexts Hne Hall Hpre Hpost.
  assert (Hrun : Re.findall HINDI_WORD_REGEX run = [run]).
  { apply findall_devanagari_word; [exact Hne|].
    eapply Forall_impl; [exact Hall|]. intros c Hc. cbv beta in Hc. lia. }
  assert (Hright : Re.findall HINDI_WORD_REGEX (run ++ post)
                   = [run] ++ Re.findall HINDI_WORD_REGEX post).
  { destruct Hpost as [->|(c & post' & -> & Hc)].
    - rewrite app_nil_r, Hrun. reflexivity.
    - apply (in_class_false HINDI_WORD_REGEX) in Hc.
      rewrite findall_sep by exact Hc. rewrite Hrun.
      rewrite (findall_cons _ c post'), Hc. reflexivity. }
  assert (Hfind : Re.findall HINDI_WORD_REGEX (pre ++ run ++ post)
                  = Re.findall HINDI_WORD_REGEX pre ++ [run]
                    ++ Re.findall HINDI_WORD_REGEX post).
  { destruct Hpre as [->|(pre' & c & -> & Hc)].
    - exact Hright.
    - apply (in_class_false HINDI_WORD_REGEX) in Hc.
      rewrite <- app_assoc. cbn [app].
      rewrite !findall_sep by exact Hc. rewrite Hright.
      simp findall. rewrite app_nil_r. reflexivity. }
  split; [exact Hfind|].
  rewrite count_hindi_words_in_pdf_result, Htexts.
  cbn [map sumZ foldr]. unfold count_page, len. rewrite Hfind.
  rewrite !length_app. cbn [length]. f_equal. lia.
Qed.

End Counter.

(** ** Properties of the upload handler *)

Section Upload.

Context `{fitz : Fitz} {Request : Type}.

(** A call of the counter shows in the trace: it opens a document. *)
Lemma count_is_traced (b : bytes) (w : World) :
  trace (count_hindi_words_in_pdf b w).2 <> trace w.
Proof.
  rewrite count_hindi_words_in_pdf_run.
  destruct (fitz_open b); simpl; intros Heq;
    apply (f_equal length) in Heq; rewrite length_app in Heq; simpl in Heq; lia.
Qed.

(** C9. The handler, not the counter, checks the file name: for an
    upload whose name does not end in [.pdf], whatever the case of the
    letters, it answers with the invalid-file-type error and no word
    count, and it leaves the world as it was: the file is not read and
    the counter, whose every call opens a document, is not called. *)
Theorem handler_rejects_other_names (request : Request) (pdf_file : UploadFile)
    (w : World) :
  ~ ends_in_pdf (filename pdf_file) ->
  (exists response,
      handle_pdf_upload request pdf_file w = (inr response, w)
      /\ context response !! "error"%string
         = Some (VStr (pystr "Invalid file type. Please upload a PDF."))
      /\ context response !! "word_count"%string = None)
  /\ (forall b w', trace (count_hindi_words_in_pdf b w').2 <> trace w').
Proof.
  intros Hname. split; [|intros b w'; apply count_is_traced].
  unfold handle_pdf_upload.
  destruct (endswith (lower (filename pdf_file)) (pystr ".pdf")) eqn:Hends.
  { exfalso. apply Hname, endswith_lower_pdf, Hends. }
  cbn [negb]. eexists. split; [reflexivity|]. cbn [context]. split.
  - apply lookup_insert_eq.
  - rewrite lookup_insert_ne by discriminate. apply lookup_singleton_ne. discriminate.
Qed.

(** The other branch: an upload whose name ends in [.pdf] is read and
    handed to the counter. *)
Lemma handler_counts_pdf_names (request : Request) (pdf_file : UploadFile) (w : World) :
  ends_in_pdf (filename pdf_file) ->
  exists events,
    trace (handle_pdf_upload request pdf_file w).2
    = trace w ++ EvRead (file pdf_file) :: EvOpen (file pdf_file) :: events.
Proof.
  intros Hname%endswith_lower_pdf. unfold handle_pdf_upload. rewrite Hname. cbn [negb].
  unfold bind at 1. unfold try_except. unfold bind at 1. unfold read.
  unfold bind at 1. rewrite count_hindi_words_in_pdf_run.
  destruct (fitz_open (file pdf_file)) as [e|doc].
  - unfold bind, print, ret, log. simpl. eexists.
    rewrite <- !app_assoc. simpl. reflexivity.
  - destruct (texts_of (pages doc)) as [e|texts].
    + unfold bind, print, ret, log. simpl. eexists.
      rewrite <- !app_assoc. simpl. reflexivity.
    + unfold ret, log. simpl. eexists. rewrite <- !app_assoc. simpl. reflexivity.
Qed.

End Upload.

(** ** The properties at concrete inputs *)

(** The claim that the danda stays out of the matched run fails: for the
    document whose one page is [राम।], the counter returns 1 and its one
    match holds the danda. *)
Lemma ram_danda_match_holds_danda :
  extract_text (fitz := FakeFitz.fake) (FakeFitz.pdf_of [text_ram_danda])
    = inr [text_ram_danda]
  /\ ~ ((count_hindi_words_in_pdf (fitz := FakeFitz.fake)
           (FakeFitz.pdf_of [text_ram_danda]) (mkWorld [] [])).1 = inr 1
        /\ forall run,
            run ∈ Re.findall HINDI_WORD_REGEX text_ram_danda -> 0x0964 ∉ run).
Proof.
  split; [reflexivity|]. intros [_ Hout].
  apply (Hout text_ram_danda).
  - change (Re.findall HINDI_WORD_REGEX text_ram_danda) with [text_ram_danda].
    apply list_elem_of_here.
  - unfold text_ram_danda. do 3 apply list_elem_of_further. apply list_elem_of_here.
Qed.


Lemma count_is_sum_of_maximal_runs_witness :
  let b := FakeFitz.pdf_of [text_hello_world; text_ram_danda] in
  extract_text (fitz := FakeFitz.fake) b = inr [text_hello_world; text_ram_danda]
  /\ (count_hindi_words_in_pdf (fitz := FakeFitz.fake) b (mkWorld [] [])).1 = inr 3.
Proof.
  split; [reflexivity|].
  apply (count_is_sum_of_maximal_runs (fitz := FakeFitz.fake) _
           [text_hello_world; text_ram_danda]).
  reflexivity.
Defined.

Lemma run_then_punctuation_is_one_word_witness :
  (count_hindi_words_in_pdf (fitz := FakeFitz.fake)
     (FakeFitz.pdf_of [text_ram_danda]) (mkWorld [] [])).1 = inr 1
  /\ (~ (0x0900 <= 0x0964 <= 0x097F) ->
      Re.findall HINDI_WORD_REGEX ([0x0930; 0x093E; 0x092E] ++ [0x0964])
      = [[0x0930; 0x093E; 0x092E]])
  /\ (0x0900 <= 0x0964 <= 0x097F ->
      Re.findall HINDI_WORD_REGEX ([0x0930; 0x093E; 0x092E] ++ [0x0964])
      = [[0x0930; 0x093E; 0x092E] ++ [0x0964]]).
Proof.
  apply (run_then_punctuation_is_one_word (fitz := FakeFitz.fake)
           (FakeFitz.pdf_of [text_ram_danda]) [0x0930; 0x093E; 0x092E] 0x0964).
  - reflexivity.
  - discriminate.
  - repeat constructor; lia.
Defined.


Lemma count_without_devanagari_witness :
  (count_hindi_words_in_pdf (fitz := FakeFitz.fake)
     (FakeFitz.pdf_of [text_hello; []]) (mkWorld [] [])).1 = inr 0.
Proof.
  apply (count_without_devanagari (fitz := FakeFitz.fake) _ _)
    with (texts := [text_hello; []]).
  - reflexivity.
  - unfold text_hello. repeat constructor; lia.
Defined.


Lemma count_is_additive_over_pages_witness :
  (count_hindi_words_in_pdf (fitz := FakeFitz.fake)
     (FakeFitz.pdf_of [text_hello_world; text_ram_danda; text_digits]) (mkWorld [] [])).1
  = inr (sumZ (map count_page ([text_hello_world] ++ [text_ram_danda; text_digits]))).
Proof.
  apply (count_is_additive_over_pages (fitz := FakeFitz.fake)
           (FakeFitz.pdf_of [text_hello_world])
           (FakeFitz.pdf_of [text_ram_danda; text_digits])
           _ _ _ (mkWorld [] []) (mkWorld [] []));
    reflexivity.
Defined.

Lemma count_digits_and_danda_witness :
  Re.findall HINDI_WORD_REGEX text_two_numbers
  = [] ++ [[0x0967; 0x0968; 0x0969]] ++ [[0x096A; 0x096B; 0x096C]]
  /\ (count_hindi_words_in_pdf (fitz := FakeFitz.fake)
        (FakeFitz.pdf_of [text_two_numbers]) (mkWorld [] [])).1 = inr (0 + 1 + 1).
Proof.
  apply (count_digits_and_danda (fitz := FakeFitz.fake)
           (FakeFitz.pdf_of [text_two_numbers])
           [] [0x0967; 0x0968; 0x0969] [0x20; 0x096A; 0x096B; 0x096C; 0x0A]).
  - reflexivity.
  - discriminate.
  - repeat constructor; lia.
  - left. reflexivity.
  - right. exists 0x20, [0x096A; 0x096B; 0x096C; 0x0A]. split; [reflexivity | lia].
Defined.

Lemma handler_rejects_other_names_witness :
  exists response,
    handle_pdf_upload (fitz := FakeFitz.fake) (tt : FakeFitz.request)
      (mkUploadFile (pystr "notes.txt") (FakeFitz.pdf_of [text_hello_world]))
      (mkWorld [] [])
    = (inr response, mkWorld [] [])
    /\ context response !! "error"%string
       = Some (VStr (pystr "Invalid file type. Please upload a PDF."))
    /\ context response !! "word_count"%string = None.
Proof.
  apply (handler_rejects_other_names (fitz := FakeFitz.fake)).
  rewrite <- endswith_lower_pdf. vm_compute. discriminate.
Defined.

(** Three digits alone are a word. *)
Example count_page_digits : count_page text_digits = 1.
Proof. reflexivity. Qed.

(** The danda alone is a word as well. *)
Example count_page_danda : count_page text_danda = 1.
Proof. reflexivity. Qed.

(** Two words of the specification, [नमस्ते दुनिया]. *)
Example count_page_namaste_duniya :
  count_page [0x0928; 0x092E; 0x0938; 0x094D; 0x0924; 0x0947; 0x20;
              0x0926; 0x0941; 0x0928; 0x093F; 0x092F; 0x093E] = 2.
Proof. reflexivity. Qed.



(** X9. The matches that the counter finds in a page text, one after the
    other, are the Devanagari code points of the text in the order of the
    text: none is left out, none is matched twice, and nothing else is
    matched. *)
Theorem findall_concat_filter (text : str) :
  concat (Re.findall HINDI_WORD_REGEX text) = List.filter devanagari text.
Proof. apply findall_concat. Qed.

(** X12. The matches of the pattern of the counter in a text are the
    texts of its maximal runs of Devanagari code points. *)
Theorem findall_matches_are_maximal_runs (text m : str) :
  m ∈ Re.findall HINDI_WORD_REGEX text <->
    exists s e, is_maximal_run text s e = true /\ m = slice text s e.
Proof.
  rewrite (findall_slices HINDI_WORD_REGEX text []). cbn [app length].
  change (map ?f ?l) with (f <$> l). rewrite list_elem_of_fmap. split.
  - intros ([s e] & -> & Hin).
    apply (finditer_maximal text text 0 s e eq_refl) in Hin as [_ Hrun]; [|intros p [=]].
    exists s, e. split; [exact Hrun | reflexivity].
  - intros (s & e & Hrun & ->). exists (s, e). split; [reflexivity|].
    apply (finditer_maximal text text 0 s e eq_refl); [intros p [=]|].
    split; [lia | exact Hrun].
Qed.

(** ** More on the counter *)

Lemma sumZ_count_page_zero texts :
  sumZ (map count_page texts) = 0 -> Forall (fun text => count_page text = 0) texts.
Proof.
  induction texts as [|t texts IH]; [constructor|].
  cbn [map sumZ foldr]. fold (sumZ (map count_page texts)). intros Hsum.
  pose proof (count_page_nonneg t). pose proof (sumZ_count_page_nonneg texts).
  constructor; [lia | apply IH; lia].
Qed.

Lemma count_page_zero text :
  count_page text = 0 <-> Forall (fun c => ~ (0x0900 <= c <= 0x097F)) text.
Proof.
  split.
  - intros Hzero.
    assert (Hnone : Re.findall HINDI_WORD_REGEX text = []).
    { unfold count_page, len in Hzero. apply length_zero_iff_nil. lia. }
    pose proof (findall_concat HINDI_WORD_REGEX text) as Hcat.
    rewrite Hnone in Hcat. symmetry in Hcat. apply filter_in_class_nil in Hcat.
    eapply Forall_impl; [exact Hcat|]. intros c Hc. apply in_class_false in Hc. exact Hc.
  - intros Hall. unfold count_page. rewrite findall_none; [reflexivity|].
    eapply Forall_impl; [exact Hall|]. intros c Hc. apply in_class_false. exact Hc.
Qed.

Lemma sumZ_Permutation xs ys : xs ≡ₚ ys -> sumZ xs = sumZ ys.
Proof.
  induction 1 as [|x xs ys _ IH|x y xs|xs ys zs _ IH1 _ IH2]; unfold sumZ in *; simpl; lia.
Qed.

Section CounterMore.

Context `{fitz : Fitz}.

(** X5. When the text of a page cannot be extracted, the counter raises
    the exception of that page, whatever the pages before it held: no
    partial count is returned. The document has been closed all the same. *)
Theorem count_stops_at_failing_page (b : bytes) (doc : Document)
    (ps1 : list Page) (p : Page) (ps2 : list Page) (texts1 : list str) (e : exn)
    (w : World) :
  fitz_open b = inr doc ->
  pages doc = ps1 ++ p :: ps2 ->
  texts_of ps1 = inr texts1 ->
  get_text p = inl e ->
  count_hindi_words_in_pdf b w
  = (inl e, mkWorld (open_documents w) (trace w ++ [EvOpen b; EvClose b])).
Proof.
  intros Hopen Hpages Hbefore Hpage.
  rewrite count_hindi_words_in_pdf_run, Hopen, Hpages, texts_of_app, Hbefore.
  cbn [texts_of]. rewrite Hpage. reflexivity.
Qed.

(** X6. For a buffer that the library reads, the counter returns 0 if and
    only if no page text holds a code point in U+0900 to U+097F. *)
Theorem count_zero_iff_no_devanagari (b : bytes) (texts : list str) (w : World) :
  extract_text b = inr texts ->
  (count_hindi_words_in_pdf b w).1 = inr 0 <->
    Forall (Forall (fun c => ~ (0x0900 <= c <= 0x097F))) texts.
Proof.
  intros Htexts. rewrite count_hindi_words_in_pdf_result, Htexts. split.
  - intros [= Hsum]. apply sumZ_count_page_zero in Hsum.
    eapply Forall_impl; [exact Hsum|]. intros text Hzero. apply count_page_zero, Hzero.
  - intros Hall. do 2 f_equal. clear Htexts.
    induction Hall as [|text texts' Htext _ IH]; [reflexivity|].
    cbn [map sumZ foldr]. fold (sumZ (map count_page texts')).
    apply count_page_zero in Htext. rewrite Htext, IH. reflexivity.
Qed.

(** X7. The count does not depend on the order of the pages: two buffers
    whose page texts are the same up to their order give the same count. *)
Theorem count_ignores_page_order (b1 b2 : bytes) (texts1 texts2 : list str)
    (w1 w2 : World) :
  extract_text b1 = inr texts1 ->
  extract_text b2 = inr texts2 ->
  texts1 ≡ₚ texts2 ->
  (count_hindi_words_in_pdf b1 w1).1 = (count_hindi_words_in_pdf b2 w2).1.
Proof.
  intros H1 H2 Hperm. rewrite !count_hindi_words_in_pdf_result, H1, H2.
  f_equal. apply sumZ_Permutation, Permutation_map, Hperm.
Qed.

End CounterMore.

(** ** More on the upload handler *)

Section UploadMore.

Context `{fitz : Fitz} {Request : Type}.

(** What a call of the handler returns and what it leaves behind. *)
Lemma handle_pdf_upload_run (request : Request) (pdf_file : UploadFile) (w : World) :
  handle_pdf_upload request pdf_file w =
    let f := file pdf_file in
    let line e :=
      pystr "Error processing file " ++ filename pdf_file ++ pystr ": " ++ exn_str e in
    let failed :=
      mkTemplateResponse "index.html"
        (<[ "error"%string :=
              VStr (pystr "Could not process the PDF file. It may be corrupt or invalid.") ]>
           {[ "request"%string := VRequest request ]}) in
    if endswith (lower (filename pdf_file)) (pystr ".pdf") then
      match fitz_open f with
      | inl e =>
          (inr failed,
           mkWorld (open_documents w) (trace w ++ [EvRead f; EvOpen f; EvPrint (line e)]))
      | inr doc =>
          match texts_of (pages doc) with
          | inl e =>
              (inr failed,
               mkWorld (open_documents w)
                 (trace w ++ [EvRead f; EvOpen f; EvClose f; EvPrint (line e)]))
          | inr texts =>
              (inr (mkTemplateResponse "index.html"
                      (<[ "filename"%string := VStr (filename pdf_file) ]>
                         (<[ "word_count"%string := VInt (sumZ (map count_page texts)) ]>
                            {[ "request"%string := VRequest request ]}))),
               mkWorld (open_documents w) (trace w ++ [EvRead f; EvOpen f; EvClose f]))
          end
      end
    else
      (inr (mkTemplateResponse "index.html"
              (<[ "error"%string := VStr (pystr "Invalid file type. Please upload a PDF.") ]>
                 {[ "request"%string := VRequest request ]})),
       w).
Proof.
  unfold handle_pdf_upload. cbv zeta.
  destruct (endswith (lower (filename pdf_file)) (pystr ".pdf")); cbn [negb]; [|reflexivity].
  unfold bind at 1. unfold try_except. unfold bind at 1. unfold read.
  unfold bind at 1. rewrite count_hindi_words_in_pdf_run.
  destruct (fitz_open (file pdf_file)) as [e|doc].
  - unfold bind, print, ret, log. simpl. rewrite <- !app_assoc. reflexivity.
  - destruct (texts_of (pages doc)) as [e|texts].
    + unfold bind, print, ret, log. simpl. rewrite <- !app_assoc. reflexivity.
    + unfold ret, log. simpl. rewrite <- !app_assoc. reflexivity.
Qed.

(** X1. For an upload whose name ends in [.pdf] and whose content the
    library reads, the handler answers with the count of the content under
    [word_count], the name as the client sent it under [filename], and no
    error; it reads the upload, opens and closes one document, and prints
    nothing. *)
Theorem handler_reports_count (request : Request) (pdf_file : UploadFile)
    (texts : list str) (w : World) :
  ends_in_pdf (filename pdf_file) ->
  extract_text (file pdf_file) = inr texts ->
  exists response w',
    handle_pdf_upload request pdf_file w = (inr response, w')
    /\ context response !! "word_count"%string = Some (VInt (sumZ (map count_page texts)))
    /\ context response !! "filename"%string = Some (VStr (filename pdf_file))
    /\ context response !! "error"%string = None
    /\ trace w' = trace w ++ [EvRead (file pdf_file); EvOpen (file pdf_file);
                              EvClose (file pdf_file)].
Proof.
  intros Hname%endswith_lower_pdf Htexts.
  rewrite handle_pdf_upload_run. cbv zeta. rewrite Hname.
  unfold extract_text in Htexts.
  destruct (fitz_open (file pdf_file)) as [e|doc]; [discriminate|]. rewrite Htexts.
  eexists _, _. split; [reflexivity|]. cbn [context trace].
  split; [|split; [|split; [|reflexivity]]].
  - rewrite lookup_insert_ne by discriminate. apply lookup_insert_eq.
  - apply lookup_insert_eq.
  - rewrite !lookup_insert_ne by discriminate. apply lookup_singleton_ne. discriminate.
Qed.

(** X2. For an upload whose name ends in [.pdf] and whose content the
    library cannot read, the handler does not raise: it answers with the
    same error context whatever the exception, without word count or file
    name, and the last thing it does is to print a line that holds the
    name of the upload and the text of the exception. *)
Theorem handler_reports_failure (request : Request) (pdf_file : UploadFile)
    (e : exn) (w : World) :
  ends_in_pdf (filename pdf_file) ->
  extract_text (file pdf_file) = inl e ->
  exists w' events,
    handle_pdf_upload request pdf_file w
    = (inr (mkTemplateResponse "index.html"
              (<[ "error"%string :=
                    VStr (pystr "Could not process the PDF file. It may be corrupt or invalid.") ]>
                 {[ "request"%string := VRequest request ]})),
       w')
    /\ trace w' = trace w ++ events
         ++ [EvPrint (pystr "Error processing file " ++ filename pdf_file
                        ++ pystr ": " ++ exn_str e)]
    /\ Forall (fun ev => forall line, ev <> EvPrint line) events.
Proof.
  intros Hname%endswith_lower_pdf Hfail.
  rewrite handle_pdf_upload_run. cbv zeta. rewrite Hname.
  unfold extract_text in Hfail.
  destruct (fitz_open (file pdf_file)) as [e0|doc].
  - injection Hfail as ->.
    eexists _, [EvRead (file pdf_file); EvOpen (file pdf_file)].
    split; [reflexivity|]. split; [reflexivity|].
    repeat constructor; discriminate.
  - rewrite Hfail.
    eexists _, [EvRead (file pdf_file); EvOpen (file pdf_file); EvClose (file pdf_file)].
    split; [reflexivity|]. split; [reflexivity|].
    repeat constructor; discriminate.
Qed.

(** X3. Every answer of the handler renders the template [index.html]
    with a context that still holds the request and that holds either an
    error or a word count, never both and never neither; the file name is
    there exactly when the word count is. *)
Theorem handler_answer_has_error_or_count (request : Request) (pdf_file : UploadFile)
    (w : World) (response : TemplateResponse) (w' : World) :
  handle_pdf_upload request pdf_file w = (inr response, w') ->
  template response = "index.html"%string
  /\ context response !! "request"%string = Some (VRequest request)
  /\ (context response !! "error"%string = None
      <-> is_Some (context response !! "word_count"%string))
  /\ (is_Some (context response !! "filename"%string)
      <-> is_Some (context response !! "word_count"%string)).
Proof.
  rewrite handle_pdf_upload_run. cbv zeta.
  destruct (endswith (lower (filename pdf_file)) (pystr ".pdf"));
    [destruct (fitz_open (file pdf_file)) as [e|doc];
     [|destruct (texts_of (pages doc)) as [e|texts]]|];
    intros [= <- _]; cbn [template context];
    (split; [reflexivity|]);
    (split; [rewrite ?lookup_insert_ne by discriminate; apply lookup_singleton_eq|]).
  1, 2, 4: rewrite lookup_insert_eq, !lookup_insert_ne, !lookup_singleton_ne by discriminate;
    split; (split; [try discriminate; intros [v Hv]; discriminate
                   | intros [v Hv]; discriminate]).
  rewrite lookup_insert_eq, !lookup_insert_ne, lookup_singleton_ne by discriminate.
  rewrite lookup_insert_eq. split; (split; [eauto | try reflexivity; eauto]).
Qed.

(** X4. The handler reads the upload and hands it to the counter exactly
    when the name of the upload ends in [.pdf], whatever the case of the
    letters. *)
Theorem handler_reads_iff_pdf_name (request : Request) (pdf_file : UploadFile) (w : World) :
  ends_in_pdf (filename pdf_file) <->
    exists events,
      trace (handle_pdf_upload request pdf_file w).2
      = trace w ++ EvRead (file pdf_file) :: EvOpen (file pdf_file) :: events.
Proof.
  rewrite <- endswith_lower_pdf, handle_pdf_upload_run. cbv zeta.
  destruct (endswith (lower (filename pdf_file)) (pystr ".pdf")).
  - split; [intros _|reflexivity].
    destruct (fitz_open (file pdf_file)) as [e|doc];
      [|destruct (texts_of (pages doc)) as [e|texts]];
      eexists; reflexivity.
  - split; [discriminate|]. intros [events Heq]. cbn [snd] in Heq.
    apply (f_equal length) in Heq. rewrite length_app in Heq. simpl in Heq. lia.
Qed.

(** X13. Whatever the upload and whatever happens to it, the handler
    leaves no document open: the open documents after the call are those
    that were open before it. *)
Theorem handler_leaves_no_document_open (request : Request) (pdf_file : UploadFile)
    (w : World) :
  open_documents (handle_pdf_upload request pdf_file w).2 = open_documents w.
Proof.
  rewrite handle_pdf_upload_run. cbv zeta.
  destruct (endswith (lower (filename pdf_file)) (pystr ".pdf")); [|reflexivity].
  destruct (fitz_open (file pdf_file)) as [e|doc]; [reflexivity|].
  destruct (texts_of (pages doc)); reflexivity.
Qed.

(** X14. An answer of the upload handler is the page of the form with
    more in its context: it renders the template that [get_upload_form]
    renders, and its context holds all that the context of the form holds. *)
Theorem handler_extends_form (request : Request) (pdf_file : UploadFile) (w : World) :
  exists form response w',
    get_upload_form request w = (inr form, w)
    /\ handle_pdf_upload request pdf_file w = (inr response, w')
    /\ template response = template form
    /\ context form ⊆ context response.
Proof.
  rewrite handle_pdf_upload_run. cbv zeta. unfold get_upload_form, ret.
  destruct (endswith (lower (filename pdf_file)) (pystr ".pdf"));
    [destruct (fitz_open (file pdf_file)) as [e|doc];
     [|destruct (texts_of (pages doc)) as [e|texts]]|];
    eexists _, _, _; (split; [reflexivity|]); (split; [reflexivity|]);
    (split; [reflexivity|]); cbn [context].
  1, 2, 4: apply insert_subseteq, lookup_singleton_ne; discriminate.
  etrans; [apply (insert_subseteq _ "word_count"%string), lookup_singleton_ne; discriminate|].
  apply insert_subseteq. rewrite lookup_insert_ne by discriminate.
  apply lookup_singleton_ne. discriminate.
Qed.

End UploadMore.

(** ** These properties at concrete inputs *)

Lemma findall_matches_in_class_witness :
  [0x0939; 0x0948; 0x0932; 0x094B] <> []
  /\ Forall (fun c => Re.in_class HINDI_WORD_REGEX c = true)
       [0x0939; 0x0948; 0x0932; 0x094B].
Proof.
  apply (findall_matches_in_class HINDI_WORD_REGEX text_hello_world).
  change (Re.findall HINDI_WORD_REGEX text_hello_world)
    with [[0x0939; 0x0948; 0x0932; 0x094B];
          [0x0935; 0x0930; 0x094D; 0x0932; 0x094D; 0x0921]].
  apply list_elem_of_here.
Defined.

Lemma findall_split_witness :
  Re.findall HINDI_WORD_REGEX (text_ram_danda ++ 0x20 :: text_digits)
  = Re.findall HINDI_WORD_REGEX text_ram_danda ++ Re.findall HINDI_WORD_REGEX text_digits.
Proof. apply findall_split. reflexivity. Defined.

Lemma count_stops_at_failing_page_witness :
  let b := FakeFitz.pdf_of [text_hello_world; [0xFFFF]; text_ram_danda] in
  count_hindi_words_in_pdf (fitz := FakeFitz.fake) b (mkWorld [] [])
  = (inl "cannot extract text"%string, mkWorld [] [EvOpen b; EvClose b]).
Proof.
  apply (count_stops_at_failing_page (fitz := FakeFitz.fake)
           (FakeFitz.pdf_of [text_hello_world; [0xFFFF]; text_ram_danda])
           [text_hello_world; [0xFFFF]; text_ram_danda]
           [text_hello_world] [0xFFFF] [text_ram_danda] [text_hello_world]
           "cannot extract text"%string (mkWorld [] []));
    reflexivity.
Defined.

Lemma count_zero_iff_no_devanagari_witness :
  (count_hindi_words_in_pdf (fitz := FakeFitz.fake)
     (FakeFitz.pdf_of [text_hello; []]) (mkWorld [] [])).1 = inr 0
  <-> Forall (Forall (fun c => ~ (0x0900 <= c <= 0x097F))) [text_hello; []].
Proof.
  apply (count_zero_iff_no_devanagari (fitz := FakeFitz.fake)). reflexivity.
Defined.

Lemma count_ignores_page_order_witness :
  (count_hindi_words_in_pdf (fitz := FakeFitz.fake)
     (FakeFitz.pdf_of [text_hello_world; text_digits]) (mkWorld [] [])).1
  = (count_hindi_words_in_pdf (fitz := FakeFitz.fake)
       (FakeFitz.pdf_of [text_digits; text_hello_world]) (mkWorld [] [])).1.
Proof.
  apply (count_ignores_page_order (fitz := FakeFitz.fake) _ _
           [text_hello_world; text_digits] [text_digits; text_hello_world]).
  - reflexivity.
  - reflexivity.
  - apply perm_swap.
Defined.

Lemma handler_reports_count_witness :
  let upload := mkUploadFile (pystr "Report.PDF") (FakeFitz.pdf_of [text_hello_world]) in
  exists response w',
    handle_pdf_upload (fitz := FakeFitz.fake) (tt : FakeFitz.request) upload (mkWorld [] [])
    = (inr response, w')
    /\ context response !! "word_count"%string
       = Some (VInt (sumZ (map count_page [text_hello_world])))
    /\ context response !! "filename"%string = Some (VStr (pystr "Report.PDF"))
    /\ context response !! "error"%string = None
    /\ trace w' = [] ++ [EvRead (file upload); EvOpen (file upload); EvClose (file upload)].
Proof.
  apply (handler_reports_count (fitz := FakeFitz.fake)).
  - apply endswith_lower_pdf. reflexivity.
  - reflexivity.
Defined.

Lemma handler_reports_failure_witness :
  let upload := mkUploadFile (pystr "notes.pdf") [x68; x65; x6c; x6c; x6f] in
  exists w' events,
    handle_pdf_upload (fitz := FakeFitz.fake) (tt : FakeFitz.request) upload (mkWorld [] [])
    = (inr (mkTemplateResponse "index.html"
              (<[ "error"%string :=
                    VStr (pystr "Could not process the PDF file. It may be corrupt or invalid.") ]>
                 {[ "request"%string := VRequest tt ]})),
       w')
    /\ trace w' = [] ++ events
         ++ [EvPrint (pystr "Error processing file " ++ pystr "notes.pdf"
                        ++ pystr ": " ++ pystr "Failed to open stream")]
    /\ Forall (fun ev => forall line, ev <> EvPrint line) events.
Proof.
  apply (handler_reports_failure (fitz := FakeFitz.fake) tt
           (mkUploadFile (pystr "notes.pdf") [x68; x65; x6c; x6c; x6f])
           "Failed to open stream"%string).
  - apply endswith_lower_pdf. reflexivity.
  - reflexivity.
Defined.

Lemma handler_answer_has_error_or_count_witness :
  let response :=
    mkTemplateResponse "index.html"
      (<[ "error"%string := VStr (pystr "Invalid file type. Please upload a PDF.") ]>
         {[ "request"%string := VRequest (tt : FakeFitz.request) ]}) in
  template response = "index.html"%string
  /\ context response !! "request"%string = Some (VRequest tt)
  /\ (context response !! "error"%string = None
      <-> is_Some (context response !! "word_count"%string))
  /\ (is_Some (context response !! "filename"%string)
      <-> is_Some (context response !! "word_count"%string)).
Proof.
  apply (handler_answer_has_error_or_count (fitz := FakeFitz.fake) tt
           (mkUploadFile (pystr "notes.txt") bytes_hello) (mkWorld [] []) _ (mkWorld [] [])).
  reflexivity.
Defined.
